(** * UpdateStateHouseBattleMap.py: the Datawrapper chart auto-updater

    A shallow embedding of [src/UpdateStateHouseBattleMap.py] and the
    properties of its four steps (fetch, upload, annotate, publish) and of
    the orchestrating [main].

    Data.  A Python [str] is a [string], one [ascii] for each character; the
    check mark of the progress lines is spelled with its bytes.  A parsed
    JSON value is a [pyval], with a [gmap] for a [dict].  The process
    environment is a [gmap string string].

    Effects.  The script talks to the network, reads the local clock and
    prints.  A [World] answers each request and each clock reading, given
    the requests made so far; a [State] records the requests made and the
    lines printed; a computation is a function from the state to an outcome
    (a value or a raised exception) and the state it leaves behind.
    Printing is taken not to fail. *)

From Stdlib Require Import String Ascii ZArith List DecimalString.
From stdpp Require Import base option gmap strings.

Local Open Scope string_scope.
Local Open Scope Z_scope.

(** ** Python strings *)

Module PyStr.

(** [s.startswith(p)] *)
Fixpoint startswith (p s : string) : bool :=
  match p, s with
  | EmptyString, _ => true
  | String a p', String b s' => if Ascii.eqb a b then startswith p' s' else false
  | String _ _, EmptyString => false
  end.

(** [s.find(sub)], [None] standing for Python's [-1]. *)
Fixpoint find (sub s : string) : option nat :=
  if startswith sub s then Some 0%nat
  else match s with
       | EmptyString => None
       | String _ s' => S <$> find sub s'
       end.

(** [sub in s] *)
Definition contains (sub s : string) : bool := bool_decide (is_Some (find sub s)).

(** [s[n:]] and [s[:n]] *)
Fixpoint drop (n : nat) (s : string) : string :=
  match n, s with
  | O, _ => s
  | S _, EmptyString => EmptyString
  | S n', String _ s' => drop n' s'
  end.

Fixpoint take (n : nat) (s : string) : string :=
  match n, s with
  | O, _ => EmptyString
  | S _, EmptyString => EmptyString
  | S n', String c s' => String c (take n' s')
  end.

(** The scan of [s.split(sep)] for a non-empty [sep]: the piece that is
    being read and the pieces after it.  [skip] counts the characters of a
    separator that was matched and is still to be stepped over. *)
Fixpoint split_scan (sep : string) (skip : nat) (s : string) : string * list string :=
  match s with
  | EmptyString => (EmptyString, [])
  | String c s' =>
      match skip with
      | S k => split_scan sep k s'
      | O =>
          if startswith sep s
          then (EmptyString,
                let '(p, ps) := split_scan sep (String.length sep - 1) s' in p :: ps)
          else let '(p, ps) := split_scan sep 0 s' in (String c p, ps)
      end
  end.

(** [s.split(sep)]; Python raises [ValueError] on an empty separator, which
    the script never passes. *)
Definition split (sep s : string) : list string :=
  let '(p, ps) := split_scan sep 0 s in p :: ps.

(** [c * n] for a one-character string [c] *)
Fixpoint repeat (c : ascii) (n : nat) : string :=
  match n with
  | O => EmptyString
  | S n' => String c (repeat c n')
  end.

End PyStr.

(** ** Values of parsed JSON *)

(** What [response.json()] returns: [None], [bool], [int], [float] (a decimal
    mantissa and exponent), [str], [list] and [dict]. *)
#[warning="-register-all"]
Inductive pyval : Type :=
  | PyNone
  | PyBool (b : bool)
  | PyInt (n : Z)
  | PyFloat (mantissa exponent : Z)
  | PyStr (s : string)
  | PyList (l : list pyval)
  | PyDict (d : gmap string pyval).

(** ** Exceptions *)

Inductive exn : Type :=
  | ValueError (msg : string)
  | HTTPError (status : Z)          (* raised by [raise_for_status] *)
  | ConnectionError                 (* the transport gave no response *)
  | JSONDecodeError                 (* [response.json()] on a body that is not JSON *)
  | AttributeError (attr : string)  (* [.get] on a value that is not a dict *)
  | IndexError.

(** ** Requests, responses and the world *)

Inductive method : Type := GET | PUT | PATCH | POST.

(** The body of a request: none, [data=...] or [json=...]. *)
Inductive payload : Type :=
  | NoBody
  | Data (s : string)
  | Json (v : pyval).

Record Request : Type := mkRequest {
  req_method : method;
  req_url : string;
  req_headers : list (string * string);
  req_body : payload
}.

(** A response: [json] is [None] when the body does not parse. *)
Record Response : Type := mkResponse {
  status_code : Z;
  text : string;
  json : option pyval
}.

(** A naive [datetime] value. *)
Record datetime : Type := mkDatetime {
  year : nat;
  month : nat;
  day : nat;
  hour : nat;
  minute : nat;
  second : nat
}.

(** The world outside the process.  Each answer may depend on the requests
    made so far.  [send] is [None] when the transport raises instead of
    giving a response.  [now] is the local wall clock, what
    [datetime.now()] reads; [utcnow] is the same instant in UTC, which the
    script never reads. *)
Record World : Type := mkWorld {
  send : list Request → Request → option Response;
  now : list Request → datetime;
  utcnow : list Request → datetime
}.

(** A line written by [print]: a text, or a text followed by [str(v)] of a
    JSON value. *)
Inductive line : Type :=
  | Line (s : string)
  | LineVal (s : string) (v : pyval).

(** What a run has done so far: the requests sent, oldest first, and the
    lines printed. *)
Record State : Type := mkState {
  calls : list Request;
  stdout : list line
}.

(** ** Computations *)

Inductive outcome (A : Type) : Type :=
  | Return (a : A)
  | Raise (e : exn).
Arguments Return {A} a.
Arguments Raise {A} e.

Definition M (A : Type) : Type := State → outcome A * State.

Definition ret {A} (a : A) : M A := λ s, (Return a, s).

Definition raise {A} (e : exn) : M A := λ s, (Raise e, s).

Definition bind {A B} (c : M A) (k : A → M B) : M B :=
  λ s, match c s with
       | (Return a, s') => k a s'
       | (Raise e, s') => (Raise e, s')
       end.

Notation "x <- c ;; k" := (bind c (λ x, k))
  (at level 100, c at next level, right associativity).
Notation "c ;; k" := (bind c (λ _, k))
  (at level 100, right associativity).

Definition print (l : line) : M unit :=
  λ s, (Return (), mkState (calls s) (stdout s ++ [l])).

(** [l[i]] *)
Definition index {A} (l : list A) (i : nat) : M A :=
  match l !! i with
  | Some x => ret x
  | None => raise IndexError
  end.

(** [str(n)] for a length and for a status code *)
Definition str_of_nat (n : nat) : string := NilZero.string_of_uint (Nat.to_uint n).
Definition str_of_Z (n : Z) : string := NilZero.string_of_int (Z.to_int n).

(** ** [datetime.strftime] in the C locale *)

Definition month_name (m : nat) : string :=
  match m with
  | 1 => "January" | 2 => "February" | 3 => "March" | 4 => "April"
  | 5 => "May" | 6 => "June" | 7 => "July" | 8 => "August"
  | 9 => "September" | 10 => "October" | 11 => "November" | 12 => "December"
  | _ => ""
  end%nat.

(** Two digits, zero padded *)
Definition pad2 (n : nat) : string :=
  if (n <? 10)%nat then "0" ++ str_of_nat n else str_of_nat n.

Definition hour12 (h : nat) : nat :=
  if (h mod 12 =? 0)%nat then 12%nat else (h mod 12)%nat.

Definition am_pm (h : nat) : string := if (h <? 12)%nat then "AM" else "PM".

Definition directive (c : ascii) (dt : datetime) : string :=
  if Ascii.eqb c "B" then month_name (month dt)
  else if Ascii.eqb c "d" then pad2 (day dt)
  else if Ascii.eqb c "m" then pad2 (month dt)
  else if Ascii.eqb c "Y" then str_of_nat (year dt)
  else if Ascii.eqb c "H" then pad2 (hour dt)
  else if Ascii.eqb c "I" then pad2 (hour12 (hour dt))
  else if Ascii.eqb c "M" then pad2 (minute dt)
  else if Ascii.eqb c "S" then pad2 (second dt)
  else if Ascii.eqb c "p" then am_pm (hour dt)
  else if Ascii.eqb c "%" then "%"
  else String "%" (String c "").

(** Every character of the format is copied, but for a [%] and the
    character after it, which are replaced by a field of [dt]. *)
Fixpoint strftime (fmt : string) (dt : datetime) : string :=
  match fmt with
  | EmptyString => EmptyString
  | String c rest =>
      if Ascii.eqb c "%"
      then match rest with
           | EmptyString => String c EmptyString
           | String d rest' => directive d dt ++ strftime rest' dt
           end
      else String c (strftime rest dt)
  end.

(** ** The [requests] library *)

Section Script.

Variable w : World.

(** One request: it is recorded, then answered by the world. *)
Definition request (r : Request) : M Response :=
  λ s, let s' := mkState (calls s ++ [r]) (stdout s) in
       match send w (calls s) r with
       | Some resp => (Return resp, s')
       | None => (Raise ConnectionError, s')
       end.

Definition requests_get (url : string) : M Response :=
  request (mkRequest GET url [] NoBody).

Definition requests_put (url : string) (headers : list (string * string))
    (data : string) : M Response :=
  request (mkRequest PUT url headers (Data data)).

Definition requests_patch (url : string) (headers : list (string * string))
    (payload : pyval) : M Response :=
  request (mkRequest PATCH url headers (Json payload)).

Definition requests_post (url : string) (headers : list (string * string)) : M Response :=
  request (mkRequest POST url headers NoBody).

(** [response.raise_for_status()]: a 4xx or 5xx status raises. *)
Definition is_error_status (c : Z) : bool := (400 <=? c) && (c <? 600).

Definition raise_for_status (r : Response) : M unit :=
  if is_error_status (status_code r) then raise (HTTPError (status_code r)) else ret ().

(** [response.json()] *)
Definition response_json (r : Response) : M pyval :=
  match json r with
  | Some v => ret v
  | None => raise JSONDecodeError
  end.

(** [v.get(key, default)]: only a dict has the method. *)
Definition py_get (v : pyval) (key : string) (dflt : pyval) : M pyval :=
  match v with
  | PyDict d => ret (default dflt (d !! key))
  | _ => raise (AttributeError "get")
  end.

(** [datetime.now()] *)
Definition datetime_now : M datetime := λ s, (Return (now w (calls s)), s).

(** ** The script *)

Definition get_google_sheet_csv (sheet_url : string) : M string :=
  sheet_id <-
    (if PyStr.contains "/d/" sheet_url
     then tail <- index (PyStr.split "/d/" sheet_url) 1 ;;
          index (PyStr.split "/" tail) 0
     else raise (ValueError "Invalid Google Sheets URL format")) ;;
  let csv_url :=
    "https://docs.google.com/spreadsheets/d/" ++ sheet_id ++ "/export?format=csv" in
  response <- requests_get csv_url ;;
  raise_for_status response ;;
  ret (text response).

Definition update_chart_data (api_key chart_id csv_data : string) : M unit :=
  let url := "https://api.datawrapper.de/v3/charts/" ++ chart_id ++ "/data" in
  let headers := [("Authorization", "Bearer " ++ api_key);
                  ("Content-Type", "text/csv")] in
  response <- requests_put url headers csv_data ;;
  raise_for_status response ;;
  print (Line ("✓ Chart data updated successfully (Status: "
               ++ str_of_Z (status_code response) ++ ")")).

Definition update_chart_metadata (api_key chart_id : string) : M unit :=
  let url := "https://api.datawrapper.de/v3/charts/" ++ chart_id in
  let headers := [("Authorization", "Bearer " ++ api_key);
                  ("Content-Type", "application/json")] in
  dt <- datetime_now ;;
  let timestamp := strftime "%B %d, %Y at %I:%M %p UTC" dt in
  let payload : pyval :=
    PyDict {[ "metadata" :=
      PyDict {[ "annotate" :=
        PyDict {[ "notes" := PyStr ("Last updated: " ++ timestamp) ]} ]} ]} in
  response <- requests_patch url headers payload ;;
  raise_for_status response ;;
  print (Line ("✓ Chart metadata updated with timestamp: " ++ timestamp)).

Definition publish_chart (api_key chart_id : string) : M pyval :=
  let url := "https://api.datawrapper.de/v3/charts/" ++ chart_id ++ "/publish" in
  let headers := [("Authorization", "Bearer " ++ api_key);
                  ("Content-Type", "application/json")] in
  response <- requests_post url headers ;;
  raise_for_status response ;;
  result <- response_json response ;;
  data <- py_get result "data" (PyDict ∅) ;;
  public_url <- py_get data "publicUrl" (PyStr "URL not available") ;;
  print (Line "✓ Chart published successfully!") ;;
  print (LineVal "  Public URL: " public_url) ;;
  ret public_url.

End Script.

(** The module-level configuration, read from [os.environ] at import. *)
Record Config : Type := mkConfig {
  DATAWRAPPER_API_KEY : option string;
  CHART_ID : string;
  GOOGLE_SHEET_URL : option string
}.

Definition config (environ : gmap string string) : Config :=
  {| DATAWRAPPER_API_KEY := environ !! "DATAWRAPPER_API_KEY";
     CHART_ID := default "kg7Xj" (environ !! "DATAWRAPPER_CHART_ID");
     GOOGLE_SHEET_URL := environ !! "GOOGLE_SHEET_URL" |}.

Definition newline : string := String (ascii_of_nat 10) EmptyString.

(** [main]; [not v] holds of [None] and of the empty string. *)
Definition main (w : World) (cfg : Config) : M unit :=
  print (Line (PyStr.repeat "=" 50)) ;;
  print (Line "Datawrapper Chart Auto-Update") ;;
  print (Line (PyStr.repeat "=" 50)) ;;
  match DATAWRAPPER_API_KEY cfg with
  | None | Some EmptyString =>
      raise (ValueError "DATAWRAPPER_API_KEY environment variable is required")
  | Some api_key =>
  match GOOGLE_SHEET_URL cfg with
  | None | Some EmptyString =>
      raise (ValueError "GOOGLE_SHEET_URL environment variable is required")
  | Some sheet_url =>
      print (Line (newline ++ "Chart ID: " ++ CHART_ID cfg)) ;;
      print (Line ("Google Sheet: " ++ PyStr.take 50 sheet_url ++ "...")) ;;
      print (Line "") ;;
      print (Line "Step 1: Fetching data from Google Sheets...") ;;
      csv_data <- get_google_sheet_csv w sheet_url ;;
      print (Line ("✓ Retrieved " ++ str_of_nat (String.length csv_data)
                   ++ " bytes of data")) ;;
      print (Line (newline ++ "Step 2: Uploading data to Datawrapper...")) ;;
      update_chart_data w api_key (CHART_ID cfg) csv_data ;;
      print (Line (newline ++ "Step 3: Updating chart metadata...")) ;;
      update_chart_metadata w api_key (CHART_ID cfg) ;;
      print (Line (newline ++ "Step 4: Publishing chart...")) ;;
      public_url <- publish_chart w api_key (CHART_ID cfg) ;;
      print (Line (newline ++ PyStr.repeat "=" 50)) ;;
      print (Line "Update complete!") ;;
      print (Line (PyStr.repeat "=" 50))
  end
  end.

(** * The vocabulary of the statements *)

(** ** The states and requests of a run *)

(** The state after one more request. *)
Definition sent (s : State) (r : Request) : State :=
  mkState (calls s ++ [r]) (stdout s).

(** The state after one more printed line. *)
Definition printed (s : State) (l : line) : State :=
  mkState (calls s) (stdout s ++ [l]).

(** What a request followed by [raise_for_status] comes to, when [hist] are
    the requests made before it. *)
Definition call_result (w : World) (hist : list Request) (r : Request) : outcome Response :=
  match send w hist r with
  | None => Raise ConnectionError
  | Some resp =>
      if is_error_status (status_code resp)
      then Raise (HTTPError (status_code resp))
      else Return resp
  end.

(** The exception a request ends in, if it fails. *)
Definition call_error (w : World) (hist : list Request) (r : Request) : option exn :=
  match call_result w hist r with
  | Raise e => Some e
  | Return _ => None
  end.

(** The identifier that [get_google_sheet_csv] reads out of a URL:
    [sheet_url.split('/d/')[1].split('/')[0]]. *)
Definition sheet_id_of (sheet_url : string) : option string :=
  tail ← PyStr.split "/d/" sheet_url !! 1%nat;
  PyStr.split "/" tail !! 0%nat.

(** The f-string of [csv_url]. *)
Definition export_url (sheet_id : string) : string :=
  "https://docs.google.com/spreadsheets/d/" ++ sheet_id ++ "/export?format=csv".

(** The four requests of the script. *)
Definition get_request (sheet_id : string) : Request :=
  mkRequest GET (export_url sheet_id) [] NoBody.

Definition put_request (api_key chart_id csv_data : string) : Request :=
  mkRequest PUT ("https://api.datawrapper.de/v3/charts/" ++ chart_id ++ "/data")
    [("Authorization", "Bearer " ++ api_key); ("Content-Type", "text/csv")]
    (Data csv_data).

Definition notes_payload (notes : string) : pyval :=
  PyDict {[ "metadata" :=
    PyDict {[ "annotate" := PyDict {[ "notes" := PyStr notes ]} ]} ]}.

Definition patch_request (api_key chart_id notes : string) : Request :=
  mkRequest PATCH ("https://api.datawrapper.de/v3/charts/" ++ chart_id)
    [("Authorization", "Bearer " ++ api_key); ("Content-Type", "application/json")]
    (Json (notes_payload notes)).

Definition post_request (api_key chart_id : string) : Request :=
  mkRequest POST ("https://api.datawrapper.de/v3/charts/" ++ chart_id ++ "/publish")
    [("Authorization", "Bearer " ++ api_key); ("Content-Type", "application/json")]
    NoBody.

(** The format of the timestamp and the note made of it. *)
Definition timestamp_format : string := "%B %d, %Y at %I:%M %p UTC".

Definition notes_at (dt : datetime) : string :=
  "Last updated: " ++ strftime timestamp_format dt.

(** What [publish_chart] reads out of a response that passed
    [raise_for_status]: [response.json()], then the two [.get]. *)
Definition public_url_of (resp : Response) : outcome pyval :=
  match json resp with
  | None => Raise JSONDecodeError
  | Some (PyDict d) =>
      match default (PyDict ∅) (d !! "data") with
      | PyDict d' => Return (default (PyStr "URL not available") (d' !! "publicUrl"))
      | _ => Raise (AttributeError "get")
      end
  | Some _ => Raise (AttributeError "get")
  end.

(** ** The runs of [main] *)

(** The state in which [main] starts its first step: the banner and the
    configuration have been printed. *)
Definition started (s : State) (chart_id sheet_url : string) : State :=
  mkState (calls s)
    (stdout s ++
     [Line (PyStr.repeat "=" 50);
      Line "Datawrapper Chart Auto-Update";
      Line (PyStr.repeat "=" 50);
      Line (newline ++ "Chart ID: " ++ chart_id);
      Line ("Google Sheet: " ++ PyStr.take 50 sheet_url ++ "...");
      Line "";
      Line "Step 1: Fetching data from Google Sheets..."]).

(** The state in which [main] fails on its configuration. *)
Definition refused (s : State) : State :=
  mkState (calls s)
    (stdout s ++
     [Line (PyStr.repeat "=" 50);
      Line "Datawrapper Chart Auto-Update";
      Line (PyStr.repeat "=" 50)]).

(** The ways a run of the four steps ends, after the requests [hist]: the
    requests it has added, in order, and its outcome.  Init, Fetch, Upload,
    Annotate, Publish, and then Done or, from any step, Failed. *)
Inductive finished (w : World) (api_key chart_id sheet_url : string)
    (hist : list Request) : list Request → outcome unit → Prop :=
  | bad_url :
      PyStr.contains "/d/" sheet_url = false →
      finished w api_key chart_id sheet_url hist []
        (Raise (ValueError "Invalid Google Sheets URL format"))
  | fetch_failed sheet_id e :
      let g := get_request sheet_id in
      sheet_id_of sheet_url = Some sheet_id →
      call_result w hist g = Raise e →
      finished w api_key chart_id sheet_url hist [g] (Raise e)
  | upload_failed sheet_id r1 e :
      let g := get_request sheet_id in
      let p := put_request api_key chart_id (text r1) in
      sheet_id_of sheet_url = Some sheet_id →
      call_result w hist g = Return r1 →
      call_result w (hist ++ [g])%list p = Raise e →
      finished w api_key chart_id sheet_url hist [g; p] (Raise e)
  | annotate_failed sheet_id r1 r2 e :
      let g := get_request sheet_id in
      let p := put_request api_key chart_id (text r1) in
      let a := patch_request api_key chart_id (notes_at (now w (hist ++ [g; p])%list)) in
      sheet_id_of sheet_url = Some sheet_id →
      call_result w hist g = Return r1 →
      call_result w (hist ++ [g])%list p = Return r2 →
      call_result w (hist ++ [g; p])%list a = Raise e →
      finished w api_key chart_id sheet_url hist [g; p; a] (Raise e)
  | publish_failed sheet_id r1 r2 r3 e :
      let g := get_request sheet_id in
      let p := put_request api_key chart_id (text r1) in
      let a := patch_request api_key chart_id (notes_at (now w (hist ++ [g; p])%list)) in
      let q := post_request api_key chart_id in
      sheet_id_of sheet_url = Some sheet_id →
      call_result w hist g = Return r1 →
      call_result w (hist ++ [g])%list p = Return r2 →
      call_result w (hist ++ [g; p])%list a = Return r3 →
      call_result w (hist ++ [g; p; a])%list q = Raise e →
      finished w api_key chart_id sheet_url hist [g; p; a; q] (Raise e)
  | publish_unreadable sheet_id r1 r2 r3 r4 e :
      let g := get_request sheet_id in
      let p := put_request api_key chart_id (text r1) in
      let a := patch_request api_key chart_id (notes_at (now w (hist ++ [g; p])%list)) in
      let q := post_request api_key chart_id in
      sheet_id_of sheet_url = Some sheet_id →
      call_result w hist g = Return r1 →
      call_result w (hist ++ [g])%list p = Return r2 →
      call_result w (hist ++ [g; p])%list a = Return r3 →
      call_result w (hist ++ [g; p; a])%list q = Return r4 →
      public_url_of r4 = Raise e →
      finished w api_key chart_id sheet_url hist [g; p; a; q] (Raise e)
  | completed sheet_id r1 r2 r3 r4 public_url :
      let g := get_request sheet_id in
      let p := put_request api_key chart_id (text r1) in
      let a := patch_request api_key chart_id (notes_at (now w (hist ++ [g; p])%list)) in
      let q := post_request api_key chart_id in
      sheet_id_of sheet_url = Some sheet_id →
      call_result w hist g = Return r1 →
      call_result w (hist ++ [g])%list p = Return r2 →
      call_result w (hist ++ [g; p])%list a = Return r3 →
      call_result w (hist ++ [g; p; a])%list q = Return r4 →
      public_url_of r4 = Return public_url →
      finished w api_key chart_id sheet_url hist [g; p; a; q] (Return ()).

(** The nested field [data.publicUrl] of a JSON body, when it has one. *)
Definition nested_public_url (body : pyval) : option pyval :=
  match body with
  | PyDict d =>
      match d !! "data" with
      | Some (PyDict d') => d' !! "publicUrl"
      | _ => None
      end
  | _ => None
  end.

Definition chart1_body : pyval :=
  PyDict {[ "data" := PyDict {[ "publicUrl" := PyStr "https://example.com/chart1" ]} ]}.

(** ** Worlds for the examples *)

(** 5 March 2024, 15:07:09 on the local clock, five hours behind UTC. *)
Definition local_time : datetime := mkDatetime 2024 3 5 15 7 9.
Definition utc_time : datetime := mkDatetime 2024 3 5 20 7 9.

(** The world that gives every request the same answer. *)
Definition answering (resp : Response) : World :=
  mkWorld (λ _ _, Some resp) (λ _, local_time) (λ _, utc_time).

(** The state of a process that has done nothing yet. *)
Definition fresh : State := mkState [] [].

(** A world in which the upload is refused with status 500. *)
Definition upload_refused : World :=
  mkWorld (λ _ r, match req_method r with
                  | PUT => Some (mkResponse 500 "" None)
                  | _ => Some (mkResponse 200 "a,b" None)
                  end)
          (λ _, local_time) (λ _, utc_time).

Definition sample_environ : gmap string string :=
  {[ "DATAWRAPPER_API_KEY" := "key";
     "GOOGLE_SHEET_URL" := "https://docs.google.com/spreadsheets/d/ABC123/edit" ]}.

(** Where the run of [main] in [upload_refused] ends. *)
Definition upload_refused_end : State :=
  mkState
    [mkRequest GET "https://docs.google.com/spreadsheets/d/ABC123/export?format=csv"
       [] NoBody;
     mkRequest PUT "https://api.datawrapper.de/v3/charts/kg7Xj/data"
       [("Authorization", "Bearer key"); ("Content-Type", "text/csv")] (Data "a,b")]
    [Line "==================================================";
     Line "Datawrapper Chart Auto-Update";
     Line "==================================================";
     Line (newline ++ "Chart ID: kg7Xj");
     Line "Google Sheet: https://docs.google.com/spreadsheets/d/ABC123/edit...";
     Line "";
     Line "Step 1: Fetching data from Google Sheets...";
     Line "✓ Retrieved 3 bytes of data";
     Line (newline ++ "Step 2: Uploading data to Datawrapper...")].

(** ** The output of a run *)

(** The lines that announce the four steps. *)
Definition announcement (k : nat) : line :=
  match k with
  | 1 => Line "Step 1: Fetching data from Google Sheets..."
  | 2 => Line (newline ++ "Step 2: Uploading data to Datawrapper...")
  | 3 => Line (newline ++ "Step 3: Updating chart metadata...")
  | _ => Line (newline ++ "Step 4: Publishing chart...")
  end%nat.

(** What [main] prints before its first request. *)
Definition preamble (chart_id sheet_url : string) : list line :=
  [Line (PyStr.repeat "=" 50);
   Line "Datawrapper Chart Auto-Update";
   Line (PyStr.repeat "=" 50);
   Line (newline ++ "Chart ID: " ++ chart_id);
   Line ("Google Sheet: " ++ PyStr.take 50 sheet_url ++ "...");
   Line "";
   announcement 1].

(** The lines of the steps, each printed once its step has returned. *)
Definition fetched_lines (r1 : Response) : list line :=
  [Line ("✓ Retrieved " ++ str_of_nat (String.length (text r1)) ++ " bytes of data");
   announcement 2].

Definition uploaded_lines (r2 : Response) : list line :=
  [Line ("✓ Chart data updated successfully (Status: "
         ++ str_of_Z (status_code r2) ++ ")");
   announcement 3].

Definition annotated_lines (dt : datetime) : list line :=
  [Line ("✓ Chart metadata updated with timestamp: " ++ strftime timestamp_format dt);
   announcement 4].

Definition published_lines (public_url : pyval) : list line :=
  [Line "✓ Chart published successfully!";
   LineVal "  Public URL: " public_url;
   Line (newline ++ PyStr.repeat "=" 50);
   Line "Update complete!";
   Line (PyStr.repeat "=" 50)].

(** The run of the four steps after the requests [hist], written out: its
    outcome, the requests it adds and the lines it prints after the
    [preamble]. *)
Definition main_trace (w : World) (api_key chart_id sheet_url : string)
    (hist : list Request) : outcome unit * (list Request * list line) :=
  if PyStr.contains "/d/" sheet_url then
    match sheet_id_of sheet_url with
    | None => (Raise IndexError, ([], []))
    | Some sheet_id =>
        let g := get_request sheet_id in
        match call_result w hist g with
        | Raise e => (Raise e, ([g], []))
        | Return r1 =>
            let p := put_request api_key chart_id (text r1) in
            let out1 := fetched_lines r1 in
            match call_result w (hist ++ [g]) p with
            | Raise e => (Raise e, ([g; p], out1))
            | Return r2 =>
                let dt := now w (hist ++ [g; p]) in
                let a := patch_request api_key chart_id (notes_at dt) in
                let out2 := (out1 ++ uploaded_lines r2)%list in
                match call_result w (hist ++ [g; p]) a with
                | Raise e => (Raise e, ([g; p; a], out2))
                | Return r3 =>
                    let q := post_request api_key chart_id in
                    let out3 := (out2 ++ annotated_lines dt)%list in
                    match call_result w (hist ++ [g; p; a]) q with
                    | Raise e => (Raise e, ([g; p; a; q], out3))
                    | Return r4 =>
                        match public_url_of r4 with
                        | Raise e => (Raise e, ([g; p; a; q], out3))
                        | Return public_url =>
                            (Return (),
                             ([g; p; a; q], (out3 ++ published_lines public_url)%list))
                        end
                    end
                end
            end
        end
    end
  else (Raise (ValueError "Invalid Google Sheets URL format"), ([], [])).


(** A world in which every request is answered with status 200, the text
    [a,b] and the body of [chart1_body]. *)
Definition all_fine : World := answering (mkResponse 200 "a,b" (Some chart1_body)).

(** * Properties *)

(** ** Strings *)

Module PyStrFacts.
Import PyStr.

#[local] Arguments Ascii.eqb : simpl never.

Lemma append_cons (c : ascii) (a b : string) : String c a ++ b = String c (a ++ b).
Proof. reflexivity. Qed.

Lemma append_nil (b : string) : "" ++ b = b.
Proof. reflexivity. Qed.

Lemma startswith_app (p t : string) : startswith p (p ++ t) = true.
Proof.
  induction p as [|a p IH]; simpl; [done|].
  by rewrite Ascii.eqb_refl.
Qed.

Lemma startswith_inv (p s : string) :
  startswith p s = true → ∃ t, s = p ++ t.
Proof.
  revert s. induction p as [|a p IH]; intros s H; simpl in *.
  - by exists s.
  - destruct s as [|b s]; [done|].
    destruct (Ascii.eqb_spec a b) as [->|]; [|done].
    destruct (IH _ H) as [t ->]. by exists t.
Qed.

Lemma startswith_nonempty (p : string) :
  startswith p "" = true → p = "".
Proof. by destruct p. Qed.

Lemma drop_app_length (p t : string) : drop (String.length p) (p ++ t) = t.
Proof. induction p as [|a p IH]; simpl; [by destruct t|done]. Qed.

Lemma contains_find (sub s : string) :
  contains sub s = true ↔ ∃ i, find sub s = Some i.
Proof. unfold contains. rewrite bool_decide_eq_true. reflexivity. Qed.

Lemma not_contains_find (sub s : string) :
  contains sub s = false ↔ find sub s = None.
Proof.
  unfold contains. rewrite bool_decide_eq_false, <-eq_None_not_Some. reflexivity.
Qed.

Lemma find_unfold (sub s : string) :
  find sub s = if startswith sub s then Some 0%nat
               else match s with
                    | EmptyString => None
                    | String _ s' => S <$> find sub s'
                    end.
Proof. by destruct s. Qed.

(** [find] gives a place where [sub] occurs... *)
Lemma find_Some_occurs (sub s : string) (i : nat) :
  find sub s = Some i →
  s = take i s ++ sub ++ drop (i + String.length sub) s.
Proof.
  revert i. induction s as [|c s IH]; intros i; simpl.
  - destruct (startswith sub "") eqn:E; [|done].
    intros [= <-]. by rewrite (startswith_nonempty _ E).
  - destruct (startswith sub (String c s)) eqn:E.
    + intros [= <-]. destruct (startswith_inv _ _ E) as [t Ht].
      rewrite Ht, Nat.add_0_l, drop_app_length. reflexivity.
    + destruct (find sub s) as [j|] eqn:F; [|done].
      intros [= <-]. simpl. rewrite append_cons. f_equal. by apply IH.
Qed.

(** ... the first one... *)
Lemma find_Some_first (sub s : string) (i j : nat) :
  find sub s = Some i → (j < i)%nat → startswith sub (drop j s) = false.
Proof.
  revert i j. induction s as [|c s IH]; intros i j; rewrite find_unfold.
  - destruct (startswith sub ""); [|done]. intros [= <-] ?. lia.
  - destruct (startswith sub (String c s)) eqn:E.
    + intros [= <-] ?. lia.
    + destruct (find sub s) as [k|] eqn:F; [|done].
      intros [= <-] Hj. destruct j as [|j]; [done|].
      simpl. apply (IH k); [done|lia].
Qed.

(** ... and finds one whenever there is one: [sub in s] is "[sub] occurs
    in [s]". *)
Lemma find_occurs (sub pre post : string) :
  is_Some (find sub (pre ++ sub ++ post)).
Proof.
  induction pre as [|c pre IH].
  - rewrite append_nil, find_unfold, startswith_app. eauto.
  - rewrite append_cons, find_unfold.
    destruct (startswith sub (String c (pre ++ sub ++ post))); [eauto|].
    destruct IH as [j ->]. simpl. eauto.
Qed.

Lemma contains_spec (sub s : string) :
  contains sub s = true ↔ ∃ pre post, s = pre ++ sub ++ post.
Proof.
  rewrite contains_find. split.
  - intros [i Hi]. eauto using find_Some_occurs.
  - intros (pre & post & ->). apply find_occurs.
Qed.

(** *** [split] *)

Lemma split_scan_skip (sep : string) (k : nat) (s : string) :
  split_scan sep k s = split_scan sep 0 (drop k s).
Proof.
  revert k. induction s as [|c s IH]; intros [|k]; try reflexivity.
  simpl split_scan at 1. simpl drop. apply IH.
Qed.

Lemma split_scan_find_None (sep s : string) :
  find sep s = None → split_scan sep 0 s = (s, []).
Proof.
  induction s as [|c s IH]; simpl.
  - done.
  - destruct (startswith sep (String c s)); [done|].
    destruct (find sep s); [done|]. intros _. by rewrite IH.
Qed.

Lemma split_scan_find_Some (sep s : string) (i : nat) :
  sep ≠ "" →
  find sep s = Some i →
  split_scan sep 0 s = (take i s, split sep (drop (i + String.length sep) s)).
Proof.
  intros Hsep. revert i. induction s as [|c s IH]; intros i; simpl.
  - destruct (startswith sep "") eqn:E; [|done].
    by apply startswith_nonempty in E.
  - destruct (startswith sep (String c s)) eqn:E.
    + intros [= <-]. simpl. f_equal. unfold split.
      rewrite split_scan_skip. destruct sep as [|a sep]; [done|].
      simpl. by rewrite Nat.sub_0_r.
    + destruct (find sep s) as [j|] eqn:F; [|done].
      intros [= <-]. rewrite (IH j eq_refl). reflexivity.
Qed.

Lemma split_find_None (sep s : string) :
  find sep s = None → split sep s = [s].
Proof. intros H. unfold split. by rewrite split_scan_find_None. Qed.

Lemma split_find_Some (sep s : string) (i : nat) :
  sep ≠ "" →
  find sep s = Some i →
  split sep s = take i s :: split sep (drop (i + String.length sep) s).
Proof. intros Hsep H. unfold split at 1. by rewrite (split_scan_find_Some _ _ i). Qed.

(** [split] never returns the empty list. *)
Lemma split_nonempty (sep s : string) : ∃ p ps, split sep s = p :: ps.
Proof. unfold split. destruct (split_scan sep 0 s) as [p ps]. eauto. Qed.

Lemma split_head_tail (sep s : string) :
  split sep s = (split_scan sep 0 s).1 :: (split_scan sep 0 s).2.
Proof. unfold split. by destruct (split_scan sep 0 s). Qed.

(** Where there is no ["/"] there is no ["/d/"]. *)
Lemma find_slash_None (s : string) : find "/" s = None → find "/d/" s = None.
Proof.
  induction s as [|c s IH]; simpl; [done|].
  destruct (Ascii.eqb "/" c); [done|].
  destruct (find "/" s); [done|]. intros _. by rewrite IH.
Qed.

End PyStrFacts.

Example split_sheet_url :
  PyStr.split "/d/" "https://docs.google.com/spreadsheets/d/ABC123/edit#gid=0"
  = ["https://docs.google.com/spreadsheets"; "ABC123/edit#gid=0"].
Proof. reflexivity. Qed.

Example split_repeated :
  PyStr.split "/d/" "x/d/d/ABC/d//d/e" = ["x"; "d/ABC"; ""; "e"].
Proof. reflexivity. Qed.

Example split_no_separator : PyStr.split "/" "" = [""].
Proof. reflexivity. Qed.

Example split_overlapping : PyStr.split "aa" "aaa" = [""; "a"].
Proof. reflexivity. Qed.

(** ** Runs of the steps *)

Section Runs.

Variable w : World.

Lemma sheet_id_of_contains (sheet_url : string) :
  PyStr.contains "/d/" sheet_url = true → is_Some (sheet_id_of sheet_url).
Proof.
  intros [i Hi]%PyStrFacts.contains_find. unfold sheet_id_of.
  rewrite (PyStrFacts.split_find_Some _ _ i) by done.
  destruct (PyStrFacts.split_nonempty "/d/" (PyStr.drop (i + String.length "/d/") sheet_url))
    as (p & ps & ->).
  destruct (PyStrFacts.split_nonempty "/" p) as (q & qs & Hq).
  simpl. rewrite Hq. simpl. eauto.
Qed.

(** A URL with ["/d/"]: one [GET] of the export URL, and its outcome. *)
Lemma get_google_sheet_csv_run (sheet_url sheet_id : string) (s : State) :
  PyStr.contains "/d/" sheet_url = true →
  sheet_id_of sheet_url = Some sheet_id →
  get_google_sheet_csv w sheet_url s =
    (match call_result w (calls s) (get_request sheet_id) with
     | Return resp => Return (text resp)
     | Raise e => Raise e
     end, sent s (get_request sheet_id)).
Proof.
  intros Hin Hid. apply bind_Some in Hid as (tail & Htail & Hid).
  unfold get_google_sheet_csv, index, bind, requests_get, request,
    raise_for_status, call_result.
  rewrite Hin, Htail. unfold ret at 1. rewrite Hid. unfold ret at 1.
  fold (export_url sheet_id). fold (get_request sheet_id).
  destruct (send w (calls s) (get_request sheet_id)) as [resp|]; [|done].
  by destruct (is_error_status (status_code resp)).
Qed.

(** A URL without ["/d/"]: the error, and nothing else. *)
Lemma get_google_sheet_csv_invalid (sheet_url : string) (s : State) :
  PyStr.contains "/d/" sheet_url = false →
  get_google_sheet_csv w sheet_url s =
    (Raise (ValueError "Invalid Google Sheets URL format"), s).
Proof. intros Hin. unfold get_google_sheet_csv. by rewrite Hin. Qed.

Lemma update_chart_data_run (api_key chart_id csv_data : string) (s : State) :
  update_chart_data w api_key chart_id csv_data s =
    let r := put_request api_key chart_id csv_data in
    match call_result w (calls s) r with
    | Return resp =>
        (Return (),
         printed (sent s r)
           (Line ("✓ Chart data updated successfully (Status: "
                  ++ str_of_Z (status_code resp) ++ ")")))
    | Raise e => (Raise e, sent s r)
    end.
Proof.
  unfold update_chart_data, requests_put, bind, request, raise_for_status, call_result.
  fold (put_request api_key chart_id csv_data). cbv zeta.
  destruct (send w (calls s) (put_request api_key chart_id csv_data)) as [resp|]; [|done].
  by destruct (is_error_status (status_code resp)).
Qed.

Lemma update_chart_metadata_run (api_key chart_id : string) (s : State) :
  update_chart_metadata w api_key chart_id s =
    let dt := now w (calls s) in
    let r := patch_request api_key chart_id (notes_at dt) in
    match call_result w (calls s) r with
    | Return resp =>
        (Return (),
         printed (sent s r)
           (Line ("✓ Chart metadata updated with timestamp: "
                  ++ strftime timestamp_format dt)))
    | Raise e => (Raise e, sent s r)
    end.
Proof.
  unfold update_chart_metadata, requests_patch, datetime_now, bind, request,
    raise_for_status, call_result.
  fold timestamp_format. fold (notes_at (now w (calls s))).
  fold (notes_payload (notes_at (now w (calls s)))).
  fold (patch_request api_key chart_id (notes_at (now w (calls s)))). cbv zeta.
  destruct (send w (calls s) _) as [resp|]; [|done].
  by destruct (is_error_status (status_code resp)).
Qed.

(** [publish_chart]: one [POST], then the reading of the answer. *)
Lemma publish_chart_run (api_key chart_id : string) (s : State) :
  publish_chart w api_key chart_id s =
    let r := post_request api_key chart_id in
    match call_result w (calls s) r with
    | Return resp =>
        match public_url_of resp with
        | Return public_url =>
            (Return public_url,
             printed (printed (sent s r) (Line "✓ Chart published successfully!"))
               (LineVal "  Public URL: " public_url))
        | Raise e => (Raise e, sent s r)
        end
    | Raise e => (Raise e, sent s r)
    end.
Proof.
  unfold publish_chart, requests_post, request, raise_for_status, call_result.
  fold (post_request api_key chart_id). cbv zeta. unfold bind at 1 2.
  destruct (send w (calls s) (post_request api_key chart_id)) as [resp|]; [|done].
  destruct (is_error_status (status_code resp)); [done|].
  unfold public_url_of, response_json, bind at 1, ret at 1.
  destruct (json resp) as [result|]; [|done]. unfold bind at 1.
  destruct result as [| | | | | |d]; try done. unfold py_get at 1, ret at 1.
  unfold bind at 1.
  destruct (default (PyDict ∅) (d !! "data")) as [| | | | | |d']; done.
Qed.

End Runs.

(** ** Runs of [main] *)

Section MainRuns.

Variable w : World.

Lemma call_result_not_ValueError (hist : list Request) (r : Request) (msg : string) :
  call_result w hist r ≠ Raise (ValueError msg).
Proof.
  unfold call_result. destruct (send w hist r) as [resp|]; [|done].
  by destruct (is_error_status (status_code resp)).
Qed.

Lemma call_error_result (hist : list Request) (r : Request) (e : exn) :
  call_error w hist r = Some e ↔ call_result w hist r = Raise e.
Proof.
  unfold call_error. destruct (call_result w hist r); split; congruence.
Qed.

Lemma bind_run {A B} (c : M A) (k : A → M B) (s : State) :
  (x <- c ;; k x) s =
    match c s with
    | (Return a, s') => k a s'
    | (Raise e, s') => (Raise e, s')
    end.
Proof. reflexivity. Qed.

Lemma bind_print_run {B} (l : line) (k : unit → M B) (s : State) :
  bind (print l) k s = k () (printed s l).
Proof. reflexivity. Qed.

Lemma calls_printed (s : State) (l : line) : calls (printed s l) = calls s.
Proof. reflexivity. Qed.

Lemma calls_sent (s : State) (r : Request) : calls (sent s r) = (calls s ++ [r])%list.
Proof. reflexivity. Qed.

Lemma main_run_valid (cfg : Config) (s : State) (api_key sheet_url : string) :
  DATAWRAPPER_API_KEY cfg = Some api_key → api_key ≠ "" →
  GOOGLE_SHEET_URL cfg = Some sheet_url → sheet_url ≠ "" →
  main w cfg s =
    (csv_data <- get_google_sheet_csv w sheet_url ;;
     print (Line ("✓ Retrieved " ++ str_of_nat (String.length csv_data)
                  ++ " bytes of data")) ;;
     print (Line (newline ++ "Step 2: Uploading data to Datawrapper...")) ;;
     update_chart_data w api_key (CHART_ID cfg) csv_data ;;
     print (Line (newline ++ "Step 3: Updating chart metadata...")) ;;
     update_chart_metadata w api_key (CHART_ID cfg) ;;
     print (Line (newline ++ "Step 4: Publishing chart...")) ;;
     public_url <- publish_chart w api_key (CHART_ID cfg) ;;
     print (Line (newline ++ PyStr.repeat "=" 50)) ;;
     print (Line "Update complete!") ;;
     print (Line (PyStr.repeat "=" 50)))
    (started s (CHART_ID cfg) sheet_url).
Proof.
  intros Hk Hk' Hu Hu'. unfold main. rewrite Hk, Hu.
  destruct api_key; [done|]. destruct sheet_url; [done|].
  unfold bind at 1 2 3 4 5 6 7. unfold print at 1 2 3 4 5 6 7. cbn [calls stdout].
  unfold started. by rewrite <-!app_assoc.
Qed.

Lemma main_run_invalid (cfg : Config) (s : State) :
  DATAWRAPPER_API_KEY cfg = None ∨ DATAWRAPPER_API_KEY cfg = Some "" ∨
  GOOGLE_SHEET_URL cfg = None ∨ GOOGLE_SHEET_URL cfg = Some "" →
  ∃ msg, main w cfg s = (Raise (ValueError msg), refused s).
Proof.
  intros H. unfold main, refused. unfold bind at 1 2 3. unfold print at 1 2 3.
  cbn [calls stdout]. rewrite <-!app_assoc. simpl.
  destruct (DATAWRAPPER_API_KEY cfg) as [[|k0 k]|]; [by eauto| |by eauto].
  destruct (GOOGLE_SHEET_URL cfg) as [[|u0 u]|]; [by eauto| |by eauto].
  destruct H as [H|[H|[H|H]]]; discriminate H.
Qed.

(** Every run of [main] on a complete configuration ends in one of the
    ways of [finished]. *)
Lemma main_finished (cfg : Config) (s s' : State) (r : outcome unit)
    (api_key sheet_url : string) :
  DATAWRAPPER_API_KEY cfg = Some api_key → api_key ≠ "" →
  GOOGLE_SHEET_URL cfg = Some sheet_url → sheet_url ≠ "" →
  main w cfg s = (r, s') →
  ∃ new : list Request,
    calls s' = (calls s ++ new)%list
    ∧ finished w api_key (CHART_ID cfg) sheet_url (calls s) new r.
Proof.
  intros Hk Hk' Hu Hu'. rewrite (main_run_valid cfg s api_key sheet_url) by done.
  set (s1 := started s (CHART_ID cfg) sheet_url).
  assert (calls s1 = calls s) as Hs1 by done. clearbody s1.
  rewrite bind_run.
  destruct (PyStr.contains "/d/" sheet_url) eqn:Hin.
  2:{ rewrite get_google_sheet_csv_invalid by done. intros [= <- <-].
      exists []. rewrite app_nil_r. split; [done|]. by constructor. }
  destruct (sheet_id_of_contains _ Hin) as [id Hid].
  rewrite (get_google_sheet_csv_run w _ id) by done. rewrite Hs1.
  destruct (call_result w (calls s) (get_request id)) as [r1|e] eqn:H1.
  2:{ intros [= <- <-]. exists [get_request id]. simpl. rewrite Hs1.
      split; [done|]. by econstructor. }
  rewrite !bind_print_run, bind_run, update_chart_data_run. cbv beta zeta.
  rewrite !calls_printed, calls_sent, Hs1.
  destruct (call_result w (calls s ++ [get_request id]) _) as [r2|e] eqn:H2.
  2:{ intros [= <- <-]. eexists [_; _]. rewrite !calls_sent, !calls_printed, calls_sent, Hs1.
      rewrite <-app_assoc. split; [done|]. by econstructor. }
  rewrite !bind_print_run, bind_run, update_chart_metadata_run. cbv beta zeta.
  rewrite !calls_printed, calls_sent, !calls_printed, calls_sent, Hs1.
  rewrite <-!app_assoc. simpl app.
  destruct (call_result w (calls s ++ [_; _]) _) as [r3|e] eqn:H3.
  2:{ intros [= <- <-]. eexists [_; _; _].
      rewrite ?calls_sent, ?calls_printed, ?calls_sent, ?calls_printed, ?calls_sent, Hs1.
      rewrite <-!app_assoc. split; [done|]. by econstructor. }
  rewrite !bind_print_run, bind_run, publish_chart_run. cbv beta zeta.
  rewrite ?calls_printed, ?calls_sent, ?calls_printed, ?calls_sent, ?calls_printed,
    ?calls_sent, Hs1.
  rewrite <-!app_assoc. simpl app.
  destruct (call_result w (calls s ++ [_; _; _]) _) as [r4|e] eqn:H4.
  2:{ intros [= <- <-]. eexists [_; _; _; _]. rewrite calls_sent.
      rewrite ?calls_printed, ?calls_sent, ?calls_printed, ?calls_sent, ?calls_printed,
        ?calls_sent, Hs1.
      rewrite <-!app_assoc. split; [done|]. by econstructor. }
  destruct (public_url_of r4) as [u|e] eqn:H5.
  2:{ intros [= <- <-]. eexists [_; _; _; _]. rewrite calls_sent.
      rewrite ?calls_printed, ?calls_sent, ?calls_printed, ?calls_sent, ?calls_printed,
        ?calls_sent, Hs1.
      rewrite <-!app_assoc. split; [done|]. by eapply publish_unreadable. }
  rewrite !bind_print_run. unfold print. cbv beta. intros [= <- <-].
  eexists [_; _; _; _]. cbn [calls].
  rewrite ?calls_printed, ?calls_sent, ?calls_printed, ?calls_sent, ?calls_printed,
    ?calls_sent, ?calls_printed, ?calls_sent, Hs1.
  rewrite <-!app_assoc. split; [done|]. by eapply completed.
Qed.

End MainRuns.

(** ** The sheet fetcher *)

Lemma drop_drop (i j : nat) (s : string) :
  PyStr.drop (i + j) s = PyStr.drop j (PyStr.drop i s).
Proof.
  revert s. induction i as [|i IH]; intros s; [done|].
  destruct s as [|c s]; simpl; [by destruct j|]. apply IH.
Qed.

(** The identifier is what follows the first ["/d/"], up to the next
    ["/d/"], cut at its first ["/"]. *)
Lemma sheet_id_of_first_marker (sheet_url : string) (i : nat) :
  PyStr.find "/d/" sheet_url = Some i →
  sheet_id_of sheet_url =
    (PyStr.split "/" (PyStr.split_scan "/d/" 0 (PyStr.drop (i + 3) sheet_url)).1) !! 0%nat.
Proof.
  intros Hi. unfold sheet_id_of.
  rewrite (PyStrFacts.split_find_Some _ _ i) by done.
  change (String.length "/d/") with 3%nat.
  by rewrite (PyStrFacts.split_head_tail "/d/").
Qed.

(** With no ["/"] after the first ["/d/"], the identifier is all that
    follows it. *)
Lemma sheet_id_of_remainder (sheet_url : string) (i : nat) :
  PyStr.find "/d/" sheet_url = Some i →
  PyStr.find "/" (PyStr.drop (i + 3) sheet_url) = None →
  sheet_id_of sheet_url = Some (PyStr.drop (i + 3) sheet_url).
Proof.
  intros Hi Hnone. rewrite (sheet_id_of_first_marker _ i) by done.
  rewrite PyStrFacts.split_scan_find_None by by apply PyStrFacts.find_slash_None.
  simpl. by rewrite PyStrFacts.split_find_None.
Qed.

(** C3.  A spreadsheet URL without ["/d/"] makes the sheet fetcher raise
    the input-format [ValueError], and the state it leaves is the state it
    was called in: no request has been made. *)
Theorem fetch_rejects_url_without_marker (w : World) (sheet_url : string) (s : State) :
  PyStr.contains "/d/" sheet_url = false →
  get_google_sheet_csv w sheet_url s =
    (Raise (ValueError "Invalid Google Sheets URL format"), s).
Proof. apply get_google_sheet_csv_invalid. Qed.

(** C9.  The sheet fetcher raises a [ValueError] exactly when the URL has
    no ["/d/"].  A URL that has one always leads to one [GET] of an export
    URL; when no ["/"] follows the first ["/d/"], the identifier in it is
    all the rest of the URL, the empty string included. *)
Theorem fetch_format_error_iff (w : World) (sheet_url : string) (s : State) :
  ((∃ msg, (get_google_sheet_csv w sheet_url s).1 = Raise (ValueError msg))
     ↔ PyStr.contains "/d/" sheet_url = false)
  ∧ (PyStr.contains "/d/" sheet_url = true →
     ∃ sheet_id,
       calls (get_google_sheet_csv w sheet_url s).2
       = (calls s ++ [get_request sheet_id])%list)
  ∧ (∀ i,
       PyStr.find "/d/" sheet_url = Some i →
       PyStr.find "/" (PyStr.drop (i + 3) sheet_url) = None →
       calls (get_google_sheet_csv w sheet_url s).2
       = (calls s ++ [get_request (PyStr.drop (i + 3) sheet_url)])%list).
Proof.
  split_and!.
  - split.
    + intros [msg H]. destruct (PyStr.contains "/d/" sheet_url) eqn:Hin; [|done].
      destruct (sheet_id_of_contains _ Hin) as [id Hid].
      rewrite (get_google_sheet_csv_run w _ id) in H by done. simpl in H.
      destruct (call_result w (calls s) (get_request id)) eqn:E; [done|].
      injection H as ->. by apply call_result_not_ValueError in E.
    + intros Hin. rewrite get_google_sheet_csv_invalid by done. eauto.
  - intros Hin. destruct (sheet_id_of_contains _ Hin) as [id Hid].
    exists id. by rewrite (get_google_sheet_csv_run w _ id).
  - intros i Hi Hnone.
    rewrite (get_google_sheet_csv_run w _ (PyStr.drop (i + 3) sheet_url)); [done| |].
    + apply PyStrFacts.contains_find. eauto.
    + by apply sheet_id_of_remainder.
Qed.

(** C2, as stated, fails: in a URL with an earlier ["/d/"], the segment
    ["/d/ABC123/edit"] is there and the identifier is taken after the
    earlier one. *)
Lemma export_url_earlier_marker_counterexample :
  PyStr.contains "/d/ABC123/edit" "https://docs.google.com/spreadsheets/d/x/d/ABC123/edit" = true
  ∧ calls (get_google_sheet_csv (answering (mkResponse 200 "" None))
             "https://docs.google.com/spreadsheets/d/x/d/ABC123/edit" fresh).2
    = [mkRequest GET "https://docs.google.com/spreadsheets/d/x/export?format=csv" [] NoBody]
  ∧ "https://docs.google.com/spreadsheets/d/x/export?format=csv"
    ≠ "https://docs.google.com/spreadsheets/d/ABC123/export?format=csv".
Proof. split_and!; [by vm_compute|by vm_compute|discriminate]. Qed.

(** C2, amended.  When the first ["/d/"] of the URL is the one that begins
    the segment ["/d/ABC123/edit"], the sheet fetcher makes one request, a
    [GET] of the export URL of identifier [ABC123] in format [csv]. *)
Theorem export_url_of_first_marker (w : World) (sheet_url : string) (i : nat) (s : State) :
  PyStr.find "/d/" sheet_url = Some i →
  PyStr.startswith "/d/ABC123/edit" (PyStr.drop i sheet_url) = true →
  calls (get_google_sheet_csv w sheet_url s).2
  = (calls s ++
     [mkRequest GET "https://docs.google.com/spreadsheets/d/ABC123/export?format=csv"
        [] NoBody])%list.
Proof.
  intros Hi [t Ht]%PyStrFacts.startswith_inv.
  rewrite (get_google_sheet_csv_run w _ "ABC123"); [done| |].
  - apply PyStrFacts.contains_find. eauto.
  - rewrite (sheet_id_of_first_marker _ i), drop_drop, Ht by done.
    rewrite !PyStrFacts.append_cons, PyStrFacts.append_nil. simpl.
    by destruct (PyStr.split_scan "/d/" 0 t).
Qed.

Lemma export_url_of_first_marker_witness :
  calls (get_google_sheet_csv (answering (mkResponse 200 "a,b" None))
           "https://docs.google.com/spreadsheets/d/ABC123/edit#gid=0" fresh).2
  = (calls fresh ++
     [mkRequest GET "https://docs.google.com/spreadsheets/d/ABC123/export?format=csv"
        [] NoBody])%list.
Proof.
  apply (export_url_of_first_marker _ _ 36); vm_compute; reflexivity.
Defined.

Lemma fetch_rejects_url_without_marker_witness :
  get_google_sheet_csv (answering (mkResponse 200 "a,b" None))
    "https://docs.google.com/spreadsheets/ABC123/edit" fresh
  = (Raise (ValueError "Invalid Google Sheets URL format"), fresh).
Proof.
  apply (fetch_rejects_url_without_marker
           (answering (mkResponse 200 "a,b" None))
           "https://docs.google.com/spreadsheets/ABC123/edit" fresh).
  vm_compute. reflexivity.
Defined.

(** A URL that ends at ["/d/"]: the identifier is empty and the request is
    made all the same. *)
Lemma fetch_format_error_iff_witness :
  calls (get_google_sheet_csv (answering (mkResponse 200 "a,b" None))
           "https://docs.google.com/spreadsheets/d/" fresh).2
  = [mkRequest GET "https://docs.google.com/spreadsheets/d//export?format=csv" [] NoBody].
Proof.
  apply (proj2 (proj2 (fetch_format_error_iff
                         (answering (mkResponse 200 "a,b" None))
                         "https://docs.google.com/spreadsheets/d/" fresh))
           36%nat); vm_compute; reflexivity.
Defined.

(** ** The publisher *)

(** C5, as stated, fails: a response with the field and an error status
    makes the publisher raise. *)
Lemma publish_error_status_counterexample :
  nested_public_url chart1_body = Some (PyStr "https://example.com/chart1")
  ∧ (publish_chart (answering (mkResponse 500 "" (Some chart1_body))) "key" "kg7Xj" fresh).1
    = Raise (HTTPError 500).
Proof. split; by vm_compute. Qed.

(** C5, amended.  When the publish response has a success status and its
    JSON body has the nested field [data.publicUrl] with a string [u], the
    publisher returns [u]. *)
Theorem publish_returns_public_url (w : World) (api_key chart_id : string) (s : State)
    (resp : Response) (body : pyval) (u : string) :
  send w (calls s) (post_request api_key chart_id) = Some resp →
  is_error_status (status_code resp) = false →
  json resp = Some body →
  nested_public_url body = Some (PyStr u) →
  (publish_chart w api_key chart_id s).1 = Return (PyStr u).
Proof.
  intros Hsend Hok Hjson Hurl. rewrite publish_chart_run. cbv zeta.
  unfold call_result. rewrite Hsend, Hok. unfold public_url_of. rewrite Hjson.
  destruct body as [| | | | | |d]; try done. simpl in Hurl.
  destruct (d !! "data") as [[| | | | | |d']|]; try done. simpl.
  by rewrite Hurl.
Qed.

Lemma publish_returns_public_url_witness :
  (publish_chart (answering (mkResponse 200 "" (Some chart1_body))) "key" "kg7Xj" fresh).1
  = Return (PyStr "https://example.com/chart1").
Proof.
  apply (publish_returns_public_url _ _ _ _ (mkResponse 200 "" (Some chart1_body))
           chart1_body); vm_compute; reflexivity.
Defined.

(** C6, as stated, fails: a body whose [data] is [null] has no
    [data.publicUrl], the status is a success, and the publisher raises. *)
Lemma publish_null_data_counterexample :
  nested_public_url (PyDict {[ "data" := PyNone ]}) = None
  ∧ is_error_status 200 = false
  ∧ (publish_chart (answering (mkResponse 200 "" (Some (PyDict {[ "data" := PyNone ]}))))
       "key" "kg7Xj" fresh).1
    = Raise (AttributeError "get").
Proof. split_and!; by vm_compute. Qed.

(** C6, amended.  When the publish response has a success status and its
    JSON body is an object that has no key [data], or whose [data] is an
    object that has no key [publicUrl], the publisher does not raise: it
    returns the placeholder. *)
Theorem publish_placeholder (w : World) (api_key chart_id : string) (s : State)
    (resp : Response) (d : gmap string pyval) :
  send w (calls s) (post_request api_key chart_id) = Some resp →
  is_error_status (status_code resp) = false →
  json resp = Some (PyDict d) →
  (d !! "data" = None
   ∨ ∃ d' : gmap string pyval, d !! "data" = Some (PyDict d') ∧ d' !! "publicUrl" = None) →
  (publish_chart w api_key chart_id s).1 = Return (PyStr "URL not available").
Proof.
  intros Hsend Hok Hjson Hlack. rewrite publish_chart_run. cbv zeta.
  unfold call_result. rewrite Hsend, Hok. unfold public_url_of. rewrite Hjson.
  destruct Hlack as [->|(d' & -> & Hd')]; simpl.
  - by rewrite lookup_empty.
  - by rewrite Hd'.
Qed.

Lemma publish_placeholder_witness :
  (publish_chart (answering (mkResponse 200 "" (Some (PyDict {[ "data" := PyDict ∅ ]}))))
     "key" "kg7Xj" fresh).1
  = Return (PyStr "URL not available").
Proof.
  apply (publish_placeholder _ _ _ _
           (mkResponse 200 "" (Some (PyDict {[ "data" := PyDict ∅ ]})))
           {[ "data" := PyDict ∅ ]}); try (vm_compute; reflexivity).
  right. exists ∅. split; vm_compute; reflexivity.
Defined.

(** ** The metadata updater *)

(** C7.  Every run of the metadata updater makes one request, a [PATCH]
    whose JSON body is the object with the one key [metadata], holding the
    one key [annotate], holding the one key [notes]; the value of [notes] is
    the note made of the local clock as read when the updater is called. *)
Theorem metadata_patch_body (w : World) (api_key chart_id : string) (s : State) :
  calls (update_chart_metadata w api_key chart_id s).2
  = (calls s ++
     [mkRequest PATCH ("https://api.datawrapper.de/v3/charts/" ++ chart_id)%string
        [("Authorization", "Bearer " ++ api_key)%string;
         ("Content-Type", "application/json")]
        (Json (PyDict {[ "metadata" :=
           PyDict {[ "annotate" :=
             PyDict {[ "notes" :=
               PyStr ("Last updated: "
                      ++ strftime "%B %d, %Y at %I:%M %p UTC" (now w (calls s)))%string
             ]} ]} ]}))])%list.
Proof.
  rewrite update_chart_metadata_run. cbv zeta.
  by destruct (call_result w (calls s) _).
Qed.

(** The timestamp, field by field. *)
Lemma strftime_timestamp (dt : datetime) :
  strftime timestamp_format dt
  = month_name (month dt) ++ " " ++ pad2 (day dt) ++ ", " ++ str_of_nat (year dt)
    ++ " at " ++ pad2 (hour12 (hour dt)) ++ ":" ++ pad2 (minute dt)
    ++ " " ++ am_pm (hour dt) ++ " UTC".
Proof. reflexivity. Qed.

(** C10.  The note that the metadata updater writes is ["Last updated: "]
    followed by the month name, the day, the year, the hour on the twelve
    hour clock, the minute and AM or PM of the local clock, and then the
    letters [UTC], whatever the clock in UTC reads. *)
Theorem metadata_notes_format (w : World) (api_key chart_id : string) (s : State) :
  let dt := now w (calls s) in
  let notes :=
    "Last updated: " ++ month_name (month dt) ++ " " ++ pad2 (day dt) ++ ", "
    ++ str_of_nat (year dt) ++ " at " ++ pad2 (hour12 (hour dt)) ++ ":"
    ++ pad2 (minute dt) ++ " " ++ am_pm (hour dt) ++ " UTC" in
  calls (update_chart_metadata w api_key chart_id s).2
  = (calls s ++ [patch_request api_key chart_id notes])%list
  ∧ ∀ utc : list Request → datetime,
      calls (update_chart_metadata (mkWorld (send w) (now w) utc) api_key chart_id s).2
      = (calls s ++ [patch_request api_key chart_id notes])%list.
Proof.
  intros dt notes.
  assert (notes = notes_at dt) as ->
    by (unfold notes_at; by rewrite strftime_timestamp).
  split; [|intros utc]; rewrite update_chart_metadata_run; cbv zeta;
    by destruct (call_result _ (calls s) _).
Qed.

(** On a clock that reads 15:07 where UTC reads 20:07, the note says
    03:07 PM UTC. *)
Example notes_at_local_time :
  notes_at (now (answering (mkResponse 200 "" None)) [])
  = "Last updated: March 05, 2024 at 03:07 PM UTC".
Proof. reflexivity. Qed.

(** ** The orchestrator *)

(** C4.  When the credential key or the spreadsheet URL is not set in the
    environment, [main] raises a [ValueError] after printing the banner
    only: no step is started and no request is made. *)
Theorem main_requires_configuration (w : World) (environ : gmap string string) (s : State) :
  environ !! "DATAWRAPPER_API_KEY" = None ∨ environ !! "GOOGLE_SHEET_URL" = None →
  ∃ (msg : string) (s' : State),
    main w (config environ) s = (Raise (ValueError msg), s')
    ∧ calls s' = calls s
    ∧ stdout s' = (stdout s ++
                   [Line (PyStr.repeat "=" 50);
                    Line "Datawrapper Chart Auto-Update";
                    Line (PyStr.repeat "=" 50)])%list.
Proof.
  intros H. destruct (main_run_invalid w (config environ) s) as [msg Hmain].
  - simpl. tauto.
  - exists msg, (refused s). by rewrite Hmain.
Qed.

Lemma main_requires_configuration_witness :
  ∃ (msg : string) (s' : State),
    main (answering (mkResponse 200 "a,b" None))
      (config {[ "DATAWRAPPER_API_KEY" := "key" ]}) fresh
    = (Raise (ValueError msg), s')
    ∧ calls s' = calls fresh
    ∧ stdout s' = (stdout fresh ++
                   [Line (PyStr.repeat "=" 50);
                    Line "Datawrapper Chart Auto-Update";
                    Line (PyStr.repeat "=" 50)])%list.
Proof.
  apply (main_requires_configuration (answering (mkResponse 200 "a,b" None))
           {[ "DATAWRAPPER_API_KEY" := "key" ]} fresh).
  right. vm_compute. reflexivity.
Defined.

(** Splitting a short list of requests around one of them. *)
Ltac split_requests H :=
  match type of H with
  | _ = (?pre ++ _ :: _)%list =>
      repeat (destruct pre as [|? pre]; simplify_eq/=)
  end.

(** A run that ends in [finished] stops at its first failing request. *)
Lemma finished_fail_stop (w : World) (api_key chart_id sheet_url : string)
    (hist new : list Request) (r : outcome unit) :
  finished w api_key chart_id sheet_url hist new r →
  (∃ n, req_method <$> new = take n [GET; PUT; PATCH; POST])
  ∧ (∀ pre r0 later e,
       new = (pre ++ r0 :: later)%list →
       call_error w (hist ++ pre)%list r0 = Some e →
       later = [] ∧ r = Raise e)
  ∧ (∀ msg, r = Raise (ValueError msg) → new = [])
  ∧ (r = Return () → length new = 4%nat).
Proof.
  intros Hfin. split_and!.
  - destruct Hfin; [by exists 0%nat|by exists 1%nat|by exists 2%nat|by exists 3%nat
                    |by exists 4%nat|by exists 4%nat|by exists 4%nat].
  - intros pre r0 later e Hnew He%call_error_result.
    destruct Hfin; split_requests Hnew; rewrite ?app_nil_r in He;
      split; congruence.
  - intros msg ->. inversion Hfin; subst; try done;
      by match goal with
         | H : call_result _ _ _ = Raise (ValueError _) |- _ =>
             apply call_result_not_ValueError in H
         | H : public_url_of ?r = Raise (ValueError _) |- _ =>
             unfold public_url_of in H; repeat case_match; simplify_eq
         end.
  - intros ->. by inversion Hfin.
Qed.

(** C1.  In every run of [main], the requests are made in the order
    [GET], [PUT], [PATCH], [POST] of the four steps; a request that fails,
    for want of a response or by an error status, is the last request of
    the run, and the run ends in the exception it raised; a run that ends
    in a [ValueError] has made no request; and a run that returns has made
    all four. *)
Theorem main_stops_at_first_error (w : World) (cfg : Config) (s s' : State)
    (r : outcome unit) :
  main w cfg s = (r, s') →
  ∃ new : list Request,
    calls s' = (calls s ++ new)%list
    ∧ (∃ n, req_method <$> new = take n [GET; PUT; PATCH; POST])
    ∧ (∀ pre r0 later e,
         new = (pre ++ r0 :: later)%list →
         call_error w (calls s ++ pre)%list r0 = Some e →
         later = [] ∧ r = Raise e)
    ∧ (∀ msg, r = Raise (ValueError msg) → new = [])
    ∧ (r = Return () → length new = 4%nat).
Proof.
  intros Hmain.
  destruct (DATAWRAPPER_API_KEY cfg) as [api_key|] eqn:Hk;
    [destruct (decide (api_key = "")) as [->|Hk']|];
    [| destruct (GOOGLE_SHEET_URL cfg) as [sheet_url|] eqn:Hu;
       [destruct (decide (sheet_url = "")) as [->|Hu']|] |].
  3:{ destruct (main_finished w cfg s s' r api_key sheet_url) as (new & Hnew & Hfin);
        [done..|].
      exists new. split; [done|]. by eapply finished_fail_stop. }
  all: destruct (main_run_invalid w cfg s) as [msg Hinv]; [tauto|];
    rewrite Hinv in Hmain; injection Hmain as <- <-;
    exists []; rewrite app_nil_r; split_and!;
      [done|by exists 0%nat|by intros [|??] ???|done|done].
Qed.

Lemma main_stops_at_first_error_witness :
  ∃ new : list Request,
    calls upload_refused_end = (calls fresh ++ new)%list
    ∧ (∃ n, req_method <$> new = take n [GET; PUT; PATCH; POST])
    ∧ (∀ pre r0 later e,
         new = (pre ++ r0 :: later)%list →
         call_error upload_refused (calls fresh ++ pre)%list r0 = Some e →
         later = [] ∧ Raise e = @Raise unit (HTTPError 500))
    ∧ (∀ msg, @Raise unit (HTTPError 500) = Raise (ValueError msg) → new = [])
    ∧ (@Raise unit (HTTPError 500) = Return () → length new = 4%nat).
Proof.
  destruct (main_stops_at_first_error upload_refused (config sample_environ) fresh
              upload_refused_end (Raise (HTTPError 500)))
    as (new & Hnew & Horder & Hstop & Hvalue & Hdone).
  - vm_compute. reflexivity.
  - exists new. split_and!; try done.
    intros pre r0 later e H1 H2. by destruct (Hstop pre r0 later e H1 H2) as [-> ->].
Defined.

(** C8.  The uploader makes one request, a [PUT] whose body is the CSV
    text it was given; and in [main], whatever text the sheet fetcher
    returns is the body of the [PUT] that follows the fetch. *)
Theorem upload_sends_fetched_csv (w : World) :
  (∀ (api_key chart_id csv_data : string) (s : State),
     calls (update_chart_data w api_key chart_id csv_data s).2
     = (calls s ++
        [mkRequest PUT
           ("https://api.datawrapper.de/v3/charts/" ++ chart_id ++ "/data")%string
           [("Authorization", "Bearer " ++ api_key)%string;
            ("Content-Type", "text/csv")]
           (Data csv_data)])%list)
  ∧ (∀ (cfg : Config) (s s1 : State) (api_key sheet_url csv_data : string),
       DATAWRAPPER_API_KEY cfg = Some api_key → api_key ≠ "" →
       GOOGLE_SHEET_URL cfg = Some sheet_url → sheet_url ≠ "" →
       get_google_sheet_csv w sheet_url (started s (CHART_ID cfg) sheet_url)
       = (Return csv_data, s1) →
       ∃ later : list Request,
         calls (main w cfg s).2
         = (calls s1 ++ put_request api_key (CHART_ID cfg) csv_data :: later)%list).
Proof.
  split.
  - intros api_key chart_id csv_data s. rewrite update_chart_data_run. cbv zeta.
    by destruct (call_result w (calls s) _).
  - intros cfg s s1 api_key sheet_url csv_data Hk Hk' Hu Hu' Hfetch.
    destruct (PyStr.contains "/d/" sheet_url) eqn:Hin;
      [|by rewrite get_google_sheet_csv_invalid in Hfetch].
    destruct (sheet_id_of_contains _ Hin) as [id Hid].
    rewrite (get_google_sheet_csv_run w _ id) in Hfetch by done.
    change (calls (started s (CHART_ID cfg) sheet_url)) with (calls s) in Hfetch.
    destruct (call_result w (calls s) (get_request id)) as [r1|] eqn:H1; [|done].
    injection Hfetch as <- <-.
    destruct (main w cfg s) as [r s'] eqn:Hmain.
    destruct (main_finished w cfg s s' r api_key sheet_url)
      as (new & Hnew & Hfin); [done..|].
    cbn [snd]. rewrite Hnew, calls_sent.
    change (calls (started s (CHART_ID cfg) sheet_url)) with (calls s).
    destruct Hfin; repeat match goal with x := _ |- _ => subst x end;
      simplify_eq; try congruence;
      match goal with
      | Ha : call_result w (calls s) _ = Return ?a |- _ =>
          lazymatch a with
          | r1 => fail
          | _ => assert (a = r1) as -> by congruence
          end
      end;
      eexists; rewrite <-app_assoc; reflexivity.
Qed.

Lemma upload_sends_fetched_csv_witness :
  ∃ later : list Request,
    calls (main upload_refused (config sample_environ) fresh).2
    = (calls (mkState
                [mkRequest GET
                   "https://docs.google.com/spreadsheets/d/ABC123/export?format=csv"
                   [] NoBody]
                (stdout (started fresh "kg7Xj"
                           "https://docs.google.com/spreadsheets/d/ABC123/edit")))
       ++ put_request "key" "kg7Xj" "a,b" :: later)%list.
Proof.
  apply (proj2 (upload_sends_fetched_csv upload_refused) (config sample_environ) fresh
           _ "key" "https://docs.google.com/spreadsheets/d/ABC123/edit" "a,b");
    try (vm_compute; reflexivity); discriminate.
Defined.

(** * More of the script *)

(** ** The whole run of [main] *)

Lemma state_eq (c1 c2 : list Request) (o1 o2 : list line) :
  c1 = c2 → o1 = o2 → mkState c1 o1 = mkState c2 o2.
Proof. by intros -> ->. Qed.

Ltac same_state :=
  solve [ f_equal; try done; apply state_eq; simpl; by rewrite <-?app_assoc ].

(** On a complete configuration, [main] is [main_trace] after the
    [preamble]. *)
Lemma main_trace_run (w : World) (cfg : Config) (s : State) (api_key sheet_url : string) :
  DATAWRAPPER_API_KEY cfg = Some api_key → api_key ≠ "" →
  GOOGLE_SHEET_URL cfg = Some sheet_url → sheet_url ≠ "" →
  main w cfg s =
    let '(r, (new, out)) := main_trace w api_key (CHART_ID cfg) sheet_url (calls s) in
    (r, mkState (calls s ++ new)
          (stdout s ++ preamble (CHART_ID cfg) sheet_url ++ out)).
Proof.
  intros Hk Hk' Hu Hu'. rewrite (main_run_valid w cfg s api_key sheet_url) by done.
  unfold main_trace. rewrite bind_run.
  destruct (PyStr.contains "/d/" sheet_url) eqn:Hin.
  2:{ rewrite get_google_sheet_csv_invalid by done. unfold started, preamble.
      by rewrite !app_nil_r. }
  destruct (sheet_id_of_contains _ Hin) as [id Hid]. rewrite Hid.
  rewrite (get_google_sheet_csv_run w _ id) by done.
  change (calls (started s (CHART_ID cfg) sheet_url)) with (calls s). cbv zeta.
  destruct (call_result w (calls s) (get_request id)) as [r1|e] eqn:H1.
  2:{ same_state. }
  rewrite !bind_print_run, bind_run, update_chart_data_run. cbv beta zeta.
  rewrite !calls_printed, calls_sent.
  change (calls (started s (CHART_ID cfg) sheet_url)) with (calls s).
  destruct (call_result w (calls s ++ [get_request id]) _) as [r2|e] eqn:H2.
  2:{ same_state. }
  rewrite !bind_print_run, bind_run, update_chart_metadata_run. cbv beta zeta.
  rewrite !calls_printed, calls_sent, !calls_printed, calls_sent.
  change (calls (started s (CHART_ID cfg) sheet_url)) with (calls s).
  rewrite <-!app_assoc. simpl app.
  destruct (call_result w (calls s ++ [_; _]) _) as [r3|e] eqn:H3.
  2:{ same_state. }
  rewrite !bind_print_run, bind_run, publish_chart_run. cbv beta zeta.
  rewrite ?calls_printed, ?calls_sent, ?calls_printed, ?calls_sent, ?calls_printed,
    ?calls_sent.
  change (calls (started s (CHART_ID cfg) sheet_url)) with (calls s).
  rewrite <-!app_assoc. simpl app.
  destruct (call_result w (calls s ++ [_; _; _]) _) as [r4|e] eqn:H4.
  2:{ same_state. }
  destruct (public_url_of r4) as [u|e] eqn:H5.
  2:{ same_state. }
  rewrite !bind_print_run. unfold print. cbv beta. same_state.
Qed.

(** ** The identifier in the URL *)

Module SheetIdFacts.
Import PyStr.

#[local] Arguments Ascii.eqb : simpl never.




Lemma no_slash_cons (c : ascii) (s : string) :
  find "/" (String c s) = None → Ascii.eqb "/" c = false ∧ find "/" s = None.
Proof.
  rewrite PyStrFacts.find_unfold. simpl.
  destruct (Ascii.eqb "/" c); [done|]. by destruct (find "/" s).
Qed.

Lemma split_scan_cons (sep : string) (c : ascii) (s : string) :
  split_scan sep 0 (String c s)
  = if startswith sep (String c s)
    then ("", let '(p, ps) := split_scan sep (String.length sep - 1) s in p :: ps)
    else let '(p, ps) := split_scan sep 0 s in (String c p, ps).
Proof. reflexivity. Qed.

(** No ["/d/"] begins inside a text that has no ["/"]. *)
Lemma split_scan_marker_after (id u : string) :
  find "/" id = None →
  split_scan "/d/" 0 (id ++ u)
  = let '(p, ps) := split_scan "/d/" 0 u in (id ++ p, ps).
Proof.
  induction id as [|c id IH]; intros Hid.
  - rewrite PyStrFacts.append_nil. by destruct (split_scan "/d/" 0 u).
  - apply no_slash_cons in Hid as [Hc Hid]. rewrite PyStrFacts.append_cons.
    simpl. rewrite Hc, (IH Hid). by destruct (split_scan "/d/" 0 u).
Qed.

(** The piece before the first ["/d/"] of a text that begins with ["/"] is
    empty or begins with ["/"]. *)
Lemma split_scan_marker_slash (rest : string) :
  let p := (split_scan "/d/" 0 (String "/" rest)).1 in
  p = "" ∨ ∃ p', p = String "/" p'.
Proof.
  intros p. subst p. rewrite split_scan_cons.
  destruct (startswith "/d/" (String "/" rest)); [by left|].
  destruct (split_scan "/d/" 0 rest). right. eauto.
Qed.

(** The piece before the first ["/"]. *)
Lemma first_piece_slash (id p : string) :
  find "/" id = None →
  p = "" ∨ (∃ p', p = String "/" p') →
  (split_scan "/" 0 (id ++ p)).1 = id.
Proof.
  induction id as [|c id IH]; intros Hid Hp.
  - rewrite PyStrFacts.append_nil. by destruct Hp as [->|[p' ->]].
  - apply no_slash_cons in Hid as [Hc Hid]. rewrite PyStrFacts.append_cons.
    simpl. rewrite Hc. specialize (IH Hid Hp).
    destruct (split_scan "/" 0 (id ++ p)). simpl in *. by rewrite IH.
Qed.

Lemma first_piece_no_slash (t : string) :
  find "/" (split_scan "/" 0 t).1 = None.
Proof.
  induction t as [|c t IH]; [done|]. simpl.
  destruct (Ascii.eqb "/" c) eqn:Hc; [done|].
  destruct (split_scan "/" 0 t) as [p ps]. simpl in *.
  by rewrite Hc, IH.
Qed.

End SheetIdFacts.

(** The identifier of a URL that has ["/d/"] has no ["/"] in it. *)
Lemma sheet_id_of_no_slash (sheet_url sheet_id : string) :
  sheet_id_of sheet_url = Some sheet_id → PyStr.find "/" sheet_id = None.
Proof.
  unfold sheet_id_of. intros (tail & _ & H)%bind_Some.
  rewrite PyStrFacts.split_head_tail in H. injection H as <-.
  apply SheetIdFacts.first_piece_no_slash.
Qed.

(** The identifier that ends at a ["/"]. *)
Lemma sheet_id_of_delimited (sheet_url sheet_id rest : string) (i : nat) :
  PyStr.find "/d/" sheet_url = Some i →
  PyStr.drop (i + 3) sheet_url = sheet_id ++ "/" ++ rest →
  PyStr.find "/" sheet_id = None →
  sheet_id_of sheet_url = Some sheet_id.
Proof.
  intros Hi Hrest Hid. rewrite (sheet_id_of_first_marker _ i), Hrest by done.
  rewrite (SheetIdFacts.split_scan_marker_after _ _ Hid).
  pose proof (SheetIdFacts.split_scan_marker_slash rest) as Hp. cbv zeta in Hp.
  change ("/" ++ rest) with (String "/" rest).
  destruct (PyStr.split_scan "/d/" 0 (String "/" rest)) as [p ps]. cbn [fst] in *.
  rewrite PyStrFacts.split_head_tail.
  by rewrite SheetIdFacts.first_piece_slash.
Qed.

Lemma sheet_id_of_Some_contains (sheet_url sheet_id : string) :
  sheet_id_of sheet_url = Some sheet_id → PyStr.contains "/d/" sheet_url = true.
Proof.
  intros H. destruct (PyStr.contains "/d/" sheet_url) eqn:Hin; [done|].
  apply PyStrFacts.not_contains_find in Hin. unfold sheet_id_of in H.
  by rewrite PyStrFacts.split_find_None in H.
Qed.

Lemma is_error_status_spec (c : Z) : is_error_status c = true ↔ 400 ≤ c < 600.
Proof. unfold is_error_status. rewrite andb_true_iff. lia. Qed.

Lemma is_error_status_false (c : Z) : is_error_status c = false ↔ c < 400 ∨ 600 ≤ c.
Proof.
  rewrite <-not_true_iff_false, is_error_status_spec. lia.
Qed.

(** X1.  When the first ["/d/"] of the URL is followed by a text without
    ["/"] and then a ["/"], that text is the identifier of the export URL:
    whatever comes after the ["/"] (a path, a query, a fragment naming a
    tab) has no part in the request. *)
Theorem fetch_identifier_before_slash (w : World) (sheet_url sheet_id rest : string)
    (i : nat) (s : State) :
  PyStr.find "/d/" sheet_url = Some i →
  PyStr.drop (i + 3) sheet_url = sheet_id ++ "/" ++ rest →
  PyStr.find "/" sheet_id = None →
  calls (get_google_sheet_csv w sheet_url s).2
  = (calls s ++
     [mkRequest GET
        ("https://docs.google.com/spreadsheets/d/" ++ sheet_id ++ "/export?format=csv")%string
        [] NoBody])%list.
Proof.
  intros Hi Hrest Hid.
  rewrite (get_google_sheet_csv_run w _ sheet_id); [done| |].
  - apply PyStrFacts.contains_find. eauto.
  - by eapply sheet_id_of_delimited.
Qed.

Lemma fetch_identifier_before_slash_witness :
  calls (get_google_sheet_csv all_fine
           "https://docs.google.com/spreadsheets/d/1AbC-xyz_9/edit?usp=sharing#gid=5"
           fresh).2
  = (calls fresh ++
     [mkRequest GET
        ("https://docs.google.com/spreadsheets/d/" ++ "1AbC-xyz_9" ++ "/export?format=csv")%string
        [] NoBody])%list.
Proof.
  apply (fetch_identifier_before_slash all_fine _ "1AbC-xyz_9" "edit?usp=sharing#gid=5"
           36 fresh); vm_compute; reflexivity.
Defined.

(** X2.  Whatever host and path the configured URL has, if it has ["/d/"]
    the one request of the sheet fetcher is a [GET], without headers or
    body, of the export path of [docs.google.com], for an identifier that
    has no ["/"] in it. *)
Theorem fetch_always_asks_google (w : World) (sheet_url : string) (s : State) :
  PyStr.contains "/d/" sheet_url = true →
  ∃ sheet_id : string,
    PyStr.find "/" sheet_id = None
    ∧ calls (get_google_sheet_csv w sheet_url s).2
      = (calls s ++
         [mkRequest GET
            ("https://docs.google.com/spreadsheets/d/" ++ sheet_id
             ++ "/export?format=csv")%string
            [] NoBody])%list.
Proof.
  intros Hin. destruct (sheet_id_of_contains _ Hin) as [id Hid].
  exists id. split; [by eapply sheet_id_of_no_slash|].
  by rewrite (get_google_sheet_csv_run w _ id).
Qed.

Lemma fetch_always_asks_google_witness :
  ∃ sheet_id : string,
    PyStr.find "/" sheet_id = None
    ∧ calls (get_google_sheet_csv all_fine "http://intranet.example/d/Q4/d/x" fresh).2
      = (calls fresh ++
         [mkRequest GET
            ("https://docs.google.com/spreadsheets/d/" ++ sheet_id
             ++ "/export?format=csv")%string
            [] NoBody])%list.
Proof.
  apply (fetch_always_asks_google all_fine "http://intranet.example/d/Q4/d/x" fresh).
  vm_compute. reflexivity.
Defined.

(** X3.  What the sheet fetcher returns, for a URL with identifier
    [sheet_id]: without a response it raises [ConnectionError]; a response
    with a status from 400 to 599 makes it raise [HTTPError] with that
    status; any other status, below 400 or from 600 on, makes it return the
    text of the response as it is.  It prints nothing in any case. *)
Theorem fetch_outcome (w : World) (sheet_url sheet_id : string) (s : State) :
  sheet_id_of sheet_url = Some sheet_id →
  let run := get_google_sheet_csv w sheet_url s in
  (send w (calls s) (get_request sheet_id) = None → run.1 = Raise ConnectionError)
  ∧ (∀ resp, send w (calls s) (get_request sheet_id) = Some resp →
       (400 ≤ status_code resp < 600 → run.1 = Raise (HTTPError (status_code resp)))
       ∧ (status_code resp < 400 ∨ 600 ≤ status_code resp →
          run.1 = Return (text resp)))
  ∧ stdout run.2 = stdout s.
Proof.
  intros Hid run. subst run.
  rewrite (get_google_sheet_csv_run w _ sheet_id)
    by eauto using sheet_id_of_Some_contains.
  unfold call_result. split_and!; [by intros ->| |done].
  intros resp ->. split.
  - intros H%is_error_status_spec. by rewrite H.
  - intros H%is_error_status_false. by rewrite H.
Qed.

Lemma fetch_outcome_witness :
  let w := answering (mkResponse 204 "" None) in
  let run := get_google_sheet_csv w "https://docs.google.com/spreadsheets/d/ABC123/edit" fresh in
  (send w (calls fresh) (get_request "ABC123") = None → run.1 = Raise ConnectionError)
  ∧ (∀ resp, send w (calls fresh) (get_request "ABC123") = Some resp →
       (400 ≤ status_code resp < 600 → run.1 = Raise (HTTPError (status_code resp)))
       ∧ (status_code resp < 400 ∨ 600 ≤ status_code resp →
          run.1 = Return (text resp)))
  ∧ stdout run.2 = stdout fresh.
Proof.
  apply (fetch_outcome (answering (mkResponse 204 "" None))
           "https://docs.google.com/spreadsheets/d/ABC123/edit" "ABC123" fresh).
  vm_compute. reflexivity.
Defined.

(** ** What the steps print *)

(** X4.  The uploader reports the status code of the response it got, and
    only a success: when the response has no error status, it returns
    after one [PUT] and one printed line that carries the status code; when
    it raises, it has printed nothing. *)
Theorem upload_reports_status (w : World) (api_key chart_id csv_data : string) (s : State) :
  let r := put_request api_key chart_id csv_data in
  let run := update_chart_data w api_key chart_id csv_data s in
  (∀ resp, send w (calls s) r = Some resp →
     is_error_status (status_code resp) = false →
     run = (Return (),
            mkState (calls s ++ [r])
              (stdout s ++
               [Line ("✓ Chart data updated successfully (Status: "
                      ++ str_of_Z (status_code resp) ++ ")")%string])))
  ∧ (∀ e, run.1 = Raise e → stdout run.2 = stdout s).
Proof.
  intros r run. subst r run. rewrite update_chart_data_run. cbv zeta.
  unfold call_result. split.
  - by intros resp -> ->.
  - intros e. destruct (send w (calls s) _) as [resp|]; [|done].
    by destruct (is_error_status (status_code resp)).
Qed.

Lemma upload_reports_status_witness :
  update_chart_data (answering (mkResponse 204 "" None)) "key" "kg7Xj" "a,b" fresh
  = (Return (),
     mkState [put_request "key" "kg7Xj" "a,b"]
       [Line "✓ Chart data updated successfully (Status: 204)"]).
Proof.
  apply (proj1 (upload_reports_status (answering (mkResponse 204 "" None))
                  "key" "kg7Xj" "a,b" fresh) (mkResponse 204 "" None));
    vm_compute; reflexivity.
Defined.

(** X5.  The metadata updater reads the clock once, before its request: on
    success the timestamp it prints is the one it has sent in the note, and
    when it raises it has printed nothing. *)
Theorem metadata_reports_sent_timestamp (w : World) (api_key chart_id : string) (s : State) :
  let timestamp := strftime "%B %d, %Y at %I:%M %p UTC" (now w (calls s)) in
  let r := patch_request api_key chart_id ("Last updated: " ++ timestamp) in
  let run := update_chart_metadata w api_key chart_id s in
  (∀ resp, send w (calls s) r = Some resp →
     is_error_status (status_code resp) = false →
     run = (Return (),
            mkState (calls s ++ [r])
              (stdout s ++
               [Line ("✓ Chart metadata updated with timestamp: " ++ timestamp)%string])))
  ∧ (∀ e, run.1 = Raise e → stdout run.2 = stdout s).
Proof.
  intros timestamp r run. subst timestamp r run. rewrite update_chart_metadata_run.
  cbv zeta. unfold call_result, notes_at, timestamp_format. split.
  - by intros resp -> ->.
  - intros e. destruct (send w (calls s) _) as [resp|]; [|done].
    by destruct (is_error_status (status_code resp)).
Qed.

Lemma metadata_reports_sent_timestamp_witness :
  update_chart_metadata all_fine "key" "kg7Xj" fresh
  = (Return (),
     mkState [patch_request "key" "kg7Xj" "Last updated: March 05, 2024 at 03:07 PM UTC"]
       [Line "✓ Chart metadata updated with timestamp: March 05, 2024 at 03:07 PM UTC"]).
Proof.
  apply (proj1 (metadata_reports_sent_timestamp all_fine "key" "kg7Xj" fresh)
           (mkResponse 200 "a,b" (Some chart1_body)));
    vm_compute; reflexivity.
Defined.

(** ** More of the publisher *)

(** X6.  Every run of the publisher makes one request, whatever comes of
    it: a [POST] to the publish address of the chart, with the bearer
    credential and no body. *)
Theorem publish_one_post (w : World) (api_key chart_id : string) (s : State) :
  calls (publish_chart w api_key chart_id s).2
  = (calls s ++
     [mkRequest POST
        ("https://api.datawrapper.de/v3/charts/" ++ chart_id ++ "/publish")%string
        [("Authorization", "Bearer " ++ api_key)%string;
         ("Content-Type", "application/json")]
        NoBody])%list.
Proof.
  rewrite publish_chart_run. cbv zeta.
  destruct (call_result w (calls s) _) as [resp|]; [|done].
  by destruct (public_url_of resp).
Qed.

(** X7.  When the key [publicUrl] is there, the publisher returns its
    value whatever it is, a [null] included, and not the placeholder; it has
    then printed its two lines, the second with that value. *)
Theorem publish_returns_present_value (w : World) (api_key chart_id : string) (s : State)
    (resp : Response) (d d' : gmap string pyval) (v : pyval) :
  send w (calls s) (post_request api_key chart_id) = Some resp →
  is_error_status (status_code resp) = false →
  json resp = Some (PyDict d) →
  d !! "data" = Some (PyDict d') →
  d' !! "publicUrl" = Some v →
  publish_chart w api_key chart_id s
  = (Return v,
     mkState (calls s ++ [post_request api_key chart_id])
       (stdout s ++
        [Line "✓ Chart published successfully!"; LineVal "  Public URL: " v])).
Proof.
  intros Hsend Hok Hjson Hd Hd'. rewrite publish_chart_run. cbv zeta.
  unfold call_result, public_url_of. rewrite Hsend, Hok, Hjson, Hd. simpl.
  rewrite Hd'. simpl. same_state.
Qed.

Lemma publish_returns_present_value_witness :
  publish_chart
    (answering (mkResponse 200 ""
                  (Some (PyDict {[ "data" := PyDict {[ "publicUrl" := PyNone ]} ]}))))
    "key" "kg7Xj" fresh
  = (Return PyNone,
     mkState (calls fresh ++ [post_request "key" "kg7Xj"])
       (stdout fresh ++
        [Line "✓ Chart published successfully!"; LineVal "  Public URL: " PyNone])).
Proof.
  apply (publish_returns_present_value _ "key" "kg7Xj" fresh
           (mkResponse 200 ""
              (Some (PyDict {[ "data" := PyDict {[ "publicUrl" := PyNone ]} ]})))
           {[ "data" := PyDict {[ "publicUrl" := PyNone ]} ]}
           {[ "publicUrl" := PyNone ]} PyNone);
    vm_compute; reflexivity.
Defined.

(** X8.  A response with a success status that cannot be read makes the
    publisher raise after its [POST] has been made and before anything is
    printed: [JSONDecodeError] for a body that is not JSON,
    [AttributeError] for a JSON value that is not an object and for an
    object whose [data] is not an object. *)
Theorem publish_unreadable_body (w : World) (api_key chart_id : string) (s : State)
    (resp : Response) :
  send w (calls s) (post_request api_key chart_id) = Some resp →
  is_error_status (status_code resp) = false →
  let posted := mkState (calls s ++ [post_request api_key chart_id]) (stdout s) in
  (json resp = None →
   publish_chart w api_key chart_id s = (Raise JSONDecodeError, posted))
  ∧ (∀ v, json resp = Some v → (∀ d, v ≠ PyDict d) →
     publish_chart w api_key chart_id s = (Raise (AttributeError "get"), posted))
  ∧ (∀ d v, json resp = Some (PyDict d) → d !! "data" = Some v → (∀ d', v ≠ PyDict d') →
     publish_chart w api_key chart_id s = (Raise (AttributeError "get"), posted)).
Proof.
  intros Hsend Hok posted. subst posted. rewrite publish_chart_run. cbv zeta.
  unfold call_result, public_url_of. rewrite Hsend, Hok. split_and!.
  - by intros ->.
  - intros v -> Hv. destruct v; try done. by destruct (Hv d).
  - intros d v -> -> Hv. simpl. destruct v; try done. by destruct (Hv d0).
Qed.

Lemma publish_unreadable_body_witness :
  publish_chart (answering (mkResponse 200 "<html>" None)) "key" "kg7Xj" fresh
  = (Raise JSONDecodeError, mkState [post_request "key" "kg7Xj"] []).
Proof.
  apply (proj1 (publish_unreadable_body (answering (mkResponse 200 "<html>" None))
                  "key" "kg7Xj" fresh (mkResponse 200 "<html>" None)
                  eq_refl eq_refl)).
  reflexivity.
Defined.

(** ** More of the orchestrator *)

Lemma main_refusal (w : World) (cfg : Config) (s : State) :
  (DATAWRAPPER_API_KEY cfg = None ∨ DATAWRAPPER_API_KEY cfg = Some "" →
   main w cfg s
   = (Raise (ValueError "DATAWRAPPER_API_KEY environment variable is required"),
      refused s))
  ∧ (∀ api_key,
       DATAWRAPPER_API_KEY cfg = Some api_key → api_key ≠ "" →
       GOOGLE_SHEET_URL cfg = None ∨ GOOGLE_SHEET_URL cfg = Some "" →
       main w cfg s
       = (Raise (ValueError "GOOGLE_SHEET_URL environment variable is required"),
          refused s)).
Proof.
  unfold main, refused. split.
  - intros [H|H]; rewrite H; unfold bind, print, raise; simpl;
      by rewrite <-!app_assoc.
  - intros api_key Hkey Hk. rewrite Hkey. destruct api_key; [done|].
    intros [H|H]; rewrite H; unfold bind, print, raise; simpl;
      by rewrite <-!app_assoc.
Qed.

(** X9.  A mandatory variable that is set to the empty string is refused
    like one that is not set, and the credential is looked at first: when
    the credential is missing or empty the error names it, whatever the
    spreadsheet URL is; the error names the URL only when the credential is
    there.  Either way nothing but the banner is printed and no request is
    made. *)
Theorem main_refusal_messages (w : World) (environ : gmap string string) (s : State) :
  (environ !! "DATAWRAPPER_API_KEY" = None ∨ environ !! "DATAWRAPPER_API_KEY" = Some "" →
   main w (config environ) s
   = (Raise (ValueError "DATAWRAPPER_API_KEY environment variable is required"),
      mkState (calls s)
        (stdout s ++ [Line (PyStr.repeat "=" 50);
                      Line "Datawrapper Chart Auto-Update";
                      Line (PyStr.repeat "=" 50)])))
  ∧ (∀ api_key,
       environ !! "DATAWRAPPER_API_KEY" = Some api_key → api_key ≠ "" →
       environ !! "GOOGLE_SHEET_URL" = None ∨ environ !! "GOOGLE_SHEET_URL" = Some "" →
       main w (config environ) s
       = (Raise (ValueError "GOOGLE_SHEET_URL environment variable is required"),
          mkState (calls s)
            (stdout s ++ [Line (PyStr.repeat "=" 50);
                          Line "Datawrapper Chart Auto-Update";
                          Line (PyStr.repeat "=" 50)]))).
Proof.
  destruct (main_refusal w (config environ) s) as [Hkey Hurl]. split.
  - intros H. by rewrite Hkey.
  - intros api_key Hk Hk' H. by rewrite (Hurl api_key).
Qed.

Lemma main_refusal_messages_witness :
  main all_fine
    (config {[ "DATAWRAPPER_API_KEY" := "";
               "GOOGLE_SHEET_URL" := "https://docs.google.com/spreadsheets/d/ABC123/edit" ]})
    fresh
  = (Raise (ValueError "DATAWRAPPER_API_KEY environment variable is required"),
     mkState (calls fresh)
       (stdout fresh ++ [Line (PyStr.repeat "=" 50);
                         Line "Datawrapper Chart Auto-Update";
                         Line (PyStr.repeat "=" 50)])).
Proof.
  apply (proj1 (main_refusal_messages all_fine
                  {[ "DATAWRAPPER_API_KEY" := "";
                     "GOOGLE_SHEET_URL" :=
                       "https://docs.google.com/spreadsheets/d/ABC123/edit" ]}
                  fresh)).
  right. vm_compute. reflexivity.
Defined.







(** X12.  A run of [main] that raises in one of its steps has printed
    nothing after the announcement of that step: the last line of its
    output is the announcement of the step of its last request, or of the
    first step when it has made none. *)
Theorem failed_run_last_line (w : World) (cfg : Config) (s s' : State) (e : exn)
    (api_key sheet_url : string) :
  DATAWRAPPER_API_KEY cfg = Some api_key → api_key ≠ "" →
  GOOGLE_SHEET_URL cfg = Some sheet_url → sheet_url ≠ "" →
  main w cfg s = (Raise e, s') →
  ∃ new : list Request,
    calls s' = (calls s ++ new)%list
    ∧ last (stdout s') = Some (announcement (max 1 (length new))).
Proof.
  intros Hk Hk' Hu Hu'. rewrite (main_trace_run w cfg s api_key sheet_url) by done.
  unfold main_trace.
  destruct (PyStr.contains "/d/" sheet_url);
    [destruct (sheet_id_of sheet_url) as [id|]; cbv zeta;
     [destruct (call_result w (calls s) _) as [r1|];
      [destruct (call_result w (calls s ++ [_]) _) as [r2|];
       [destruct (call_result w (calls s ++ [_; _]) _) as [r3|];
        [destruct (call_result w (calls s ++ [_; _; _]) _) as [r4|];
         [destruct (public_url_of r4) as [u|]|]|]|]|]|]|];
    intros [= <- <-]; eexists; (split; [reflexivity|]);
    cbn [stdout]; by rewrite last_app.
Qed.

Lemma failed_run_last_line_witness :
  ∃ new : list Request,
    calls upload_refused_end = (calls fresh ++ new)%list
    ∧ last (stdout upload_refused_end) = Some (announcement (max 1 (length new))).
Proof.
  apply (failed_run_last_line upload_refused (config sample_environ) fresh
           upload_refused_end (HTTPError 500) "key"
           "https://docs.google.com/spreadsheets/d/ABC123/edit");
    try (vm_compute; reflexivity); discriminate.
Defined.










